(** * BedrockClient: chat-completion adapter over Amazon Bedrock

    A shallow embedding of [biz/llm/client/bedrock.py] and the properties of
    its three operations: construction with credential fallback
    ([__init__]), message conversion ([_convert_to_bedrock_messages]) and the
    call-and-parse method ([completions]).

    Python values are modelled as follows.
    - [str] is a sequence of Unicode code points ([pystr]); the literals of
      the source are written as Rocq strings and decoded from UTF-8 by [py].
    - a [dict] with arbitrary string keys (a chat message, the process
      environment) is a [gmap pystr _]; [d.get(k, default)] is [dict_get].
    - a value produced by [json.loads] or handed to [json.dumps] is a [json]
      tree; an object keeps its members in insertion order.
    - a [try]/[except] block is a computation in the [result] type, and the
      calls made to the logger and to the remote client are recorded in an
      event trace. *)

From Stdlib Require Import PrimFloat.
From stdpp Require Import gmap strings list fin_maps.

Open Scope N_scope.
Set Warnings "-register-all,-inexact-float".

(** ** Python strings *)

(** A Python [str]: the sequence of its code points. *)
Abbreviation pystr := (list N).

(** Decoding of a UTF-8 byte sequence: [pending] continuation bytes are
    still expected for the code point accumulated in [acc]. *)
Fixpoint utf8_decode (pending : nat) (acc : N) (bs : list N) : pystr :=
  match bs with
  | [] => []
  | b :: bs' =>
      match pending with
      | O =>
          if b <? 128 then b :: utf8_decode 0 0 bs'
          else if b <? 224 then utf8_decode 1 (b - 192) bs'
          else if b <? 240 then utf8_decode 2 (b - 224) bs'
          else utf8_decode 3 (b - 240) bs'
      | S O => (acc * 64 + (b - 128)) :: utf8_decode 0 0 bs'
      | S p => utf8_decode p (acc * 64 + (b - 128)) bs'
      end
  end.

(** A string literal of the source. *)
Definition py (s : string) : pystr :=
  utf8_decode 0 0 (map Ascii.N_of_ascii (String.list_ascii_of_string s)).
Arguments py : simpl never.

(** [str.isspace] on one code point (the Unicode white-space set that
    [str.strip()] removes when called without argument). *)
Definition isspace (c : N) : bool :=
  ((9 <=? c) && (c <=? 13)) || ((28 <=? c) && (c <=? 32))
  || (c =? 133) || (c =? 160) || (c =? 5760)
  || ((8192 <=? c) && (c <=? 8202))
  || (c =? 8232) || (c =? 8233) || (c =? 8239) || (c =? 8287)
  || (c =? 12288).

Fixpoint lstrip (s : pystr) : pystr :=
  match s with
  | [] => []
  | c :: s' => if isspace c then lstrip s' else s
  end.

Definition rstrip (s : pystr) : pystr := reverse (lstrip (reverse s)).

(** [s.strip()] *)
Definition strip (s : pystr) : pystr := rstrip (lstrip s).

(** [needle in haystack] on two strings: the substring test. *)
Fixpoint str_prefix (p s : pystr) : bool :=
  match p, s with
  | [], _ => true
  | _ :: _, [] => false
  | a :: p', b :: s' => (a =? b) && str_prefix p' s'
  end.

Fixpoint str_contains (needle haystack : pystr) : bool :=
  str_prefix needle haystack
  || match haystack with
     | [] => false
     | _ :: h' => str_contains needle h'
     end.

(** [d.get(k, default)] on a dictionary with string keys. *)
Definition dict_get {V : Type} (d : gmap pystr V) (k : pystr) (dflt : V) : V :=
  default dflt (d !! k).

(** ** JSON values

    What [json.loads] returns and what [json.dumps] accepts: [None], [bool],
    [int], [float] (IEEE binary64), [str], [list] and a [dict] with string
    keys whose members are kept in insertion order. *)
Inductive json :=
| JNull
| JBool (b : bool)
| JInt (n : Z)
| JFloat (f : float)
| JStr (s : pystr)
| JList (items : list json)
| JDict (members : list (pystr * json)).

(** [type(v).__name__] *)
Definition type_name (v : json) : pystr :=
  match v with
  | JNull => py "NoneType"
  | JBool _ => py "bool"
  | JInt _ => py "int"
  | JFloat _ => py "float"
  | JStr _ => py "str"
  | JList _ => py "list"
  | JDict _ => py "dict"
  end.

(** [bool(v)]: the truth value tested by [if v] and by [and]/[or]. *)
Definition truthy (v : json) : bool :=
  match v with
  | JNull => false
  | JBool b => b
  | JInt n => negb (n =? 0)%Z
  | JFloat f => negb (PrimFloat.eqb f 0)
  | JStr s => negb (bool_decide (s = []))
  | JList items => negb (bool_decide (length items = 0%nat))
  | JDict members => negb (bool_decide (length members = 0%nat))
  end.

(** [bool(v)] for a value that is a [str] or [None]. *)
Definition truthy_str (v : option pystr) : bool :=
  match v with
  | Some (_ :: _) => true
  | _ => false
  end.

(** Lookup of a key among the members of a [dict]. *)
Fixpoint members_get (k : pystr) (members : list (pystr * json)) : option json :=
  match members with
  | [] => None
  | (k', v) :: rest => if decide (k = k') then Some v else members_get k rest
  end.

(** [d[k] = v]: an existing key keeps its position, a new one goes last. *)
Fixpoint members_set (k : pystr) (v : json) (members : list (pystr * json))
  : list (pystr * json) :=
  match members with
  | [] => [(k, v)]
  | (k', v') :: rest =>
      if decide (k = k') then (k, v) :: rest else (k', v') :: members_set k v rest
  end.

(** ** Exceptions *)

(** The subclasses of [Exception] that the adapter meets. [ClientError]
    is botocore's: [response] is [e.response], the dict the error was built
    from, which need not have an [Error] member nor a [Code] in it, and
    [text] is [str(e)]. The next four are raised by the interpreter itself,
    [NoCredentialsError] and [ValueError] occur at construction, and
    [OtherError] is any other subclass of [Exception]. *)
Inductive exception :=
| ClientError (response : json) (text : pystr)
| KeyError (key_repr : pystr)
| IndexError (text : pystr)
| TypeError (text : pystr)
| AttributeError (text : pystr)
| NoCredentialsError (text : pystr)
| ValueError (text : pystr)
| OtherError (text : pystr).

(** [str(e)] *)
Definition str_exception (e : exception) : pystr :=
  match e with
  | ClientError _ text => text
  | KeyError key_repr => key_repr
  | IndexError text | TypeError text | AttributeError text
  | NoCredentialsError text | ValueError text | OtherError text => text
  end.

(** The outcome of evaluating an expression. *)
Inductive result (A : Type) :=
| Return (a : A)
| Raise (e : exception).
Arguments Return {A} a.
Arguments Raise {A} e.

(** ** Operations of the interpreter on JSON values

    The messages are those of CPython 3.12. *)

(** [k in v] for a string [k]. *)
Definition contains (k : pystr) (v : json) : result bool :=
  match v with
  | JDict members => Return (bool_decide (is_Some (members_get k members)))
  | JList items =>
      Return (existsb (fun x => match x with
                                | JStr s => bool_decide (s = k)
                                | _ => false
                                end) items)
  | JStr s => Return (str_contains k s)
  | _ => Raise (TypeError (py "argument of type '" ++ type_name v
                           ++ py "' is not iterable"))
  end.

(** [v[k]] for a string [k] made of letters. *)
Definition getitem_str (v : json) (k : pystr) : result json :=
  match v with
  | JDict members =>
      match members_get k members with
      | Some x => Return x
      | None => Raise (KeyError (py "'" ++ k ++ py "'"))
      end
  | JList _ => Raise (TypeError (py "list indices must be integers or slices, not str"))
  | JStr _ => Raise (TypeError (py "string indices must be integers, not 'str'"))
  | _ => Raise (TypeError (py "'" ++ type_name v ++ py "' object is not subscriptable"))
  end.

(** [v[0]]. The keys of a [dict] that comes from JSON are strings, none
    equals [0]. *)
Definition getitem_0 (v : json) : result json :=
  match v with
  | JList (x :: _) => Return x
  | JList [] => Raise (IndexError (py "list index out of range"))
  | JStr (c :: _) => Return (JStr [c])
  | JStr [] => Raise (IndexError (py "string index out of range"))
  | JDict _ => Raise (KeyError (py "0"))
  | _ => Raise (TypeError (py "'" ++ type_name v ++ py "' object is not subscriptable"))
  end.

(** [v.strip()] *)
Definition call_strip (v : json) : result pystr :=
  match v with
  | JStr s => Return (strip s)
  | _ => Raise (AttributeError (py "'" ++ type_name v
                                ++ py "' object has no attribute 'strip'"))
  end.

(** [v == s] for a string [s]. *)
Definition eq_str (v : json) (s : pystr) : bool :=
  match v with
  | JStr t => bool_decide (t = s)
  | _ => false
  end.

(** ** The adapter's data *)

(** A chat message, [Dict[str, str]]. *)
Abbreviation message := (gmap pystr pystr).

(** The keyword arguments of [invoke_model]. *)
Record invoke_request := {
  body : json;
  modelId : pystr;
  accept : pystr;
  contentType : pystr
}.

(** The handle returned by [boto3.client('bedrock-runtime', ...)], seen
    through the one use the adapter makes of it: [invoke_model(...)]
    followed by [json.loads(response.get('body').read())] either yields the
    parsed response body or raises. *)
Abbreviation bedrock_runtime := (invoke_request -> result json).

(** The keyword arguments of [boto3.client]. *)
Record client_kwargs := {
  service_name : pystr;
  aws_access_key_id : option pystr;
  aws_secret_access_key : option pystr;
  region_name : option pystr
}.

(** An instance of the class. *)
Record BedrockClient := {
  default_model : pystr;
  client : bedrock_runtime
}.

(** The dictionary returned by [_convert_to_bedrock_messages]; [None] in
    [cr_system] is Python's [None]. *)
Record converted := {
  cr_messages : list json;
  cr_system : option pystr
}.

(** The [model] argument, [Optional[str] | NotGiven]. *)
Inductive model_arg :=
| NOT_GIVEN
| ModelNone
| ModelStr (s : pystr).

(** Modelled from the spec: the truth value of [NOT_GIVEN], whose class
    [NotGiven] lives in [biz.llm.types]: a call that gives no model resolves
    to the configured default, so the sentinel counts as false. *)
Definition model_truthy (model : model_arg) : bool :=
  match model with
  | NOT_GIVEN => false
  | ModelNone => false
  | ModelStr s => truthy_str (Some s)
  end.

(** ** Effects *)

(** What a method does to the outside world, in order. *)
Inductive event :=
| CreateClient (kwargs : client_kwargs)
| LogDebug (model : pystr) (messages : list message)
| LogError (text : pystr)
| InvokeModel (request : invoke_request).

(** A computation: the events it emitted and how it ended. *)
Definition exec (A : Type) : Type := list event * result A.

Definition ret {A} (a : A) : exec A := ([], Return a).

Definition raise {A} (e : exception) : exec A := ([], Raise e).

Definition emit (ev : event) : exec unit := ([ev], Return tt).

Definition lift {A} (r : result A) : exec A := ([], r).

Definition bind {A B} (m : exec A) (k : A -> exec B) : exec B :=
  match m with
  | (t, Return a) => let '(t', r) := k a in (t ++ t', r)
  | (t, Raise e) => (t, Raise e)
  end.

(** [try: m  except Exception as e: h e] *)
Definition try_except {A} (m : exec A) (h : exception -> exec A) : exec A :=
  match m with
  | (t, Return a) => (t, Return a)
  | (t, Raise e) => let '(t', r) := h e in (t ++ t', r)
  end.

#[global] Instance exec_ret : MRet exec := @ret.
#[global] Instance exec_bind : MBind exec := fun A B k m => bind m k.

(** ** The class *)

(** The body appended for a [user] or [assistant] message. *)
Definition text_message (role content : pystr) : json :=
  JDict [(py "role", JStr role);
         (py "content", JList [JDict [(py "type", JStr (py "text"));
                                      (py "text", JStr content)]])].

(** One turn of the loop of [_convert_to_bedrock_messages], on the pair
    of its two local variables [bedrock_messages] and [system_message]. *)
Definition convert_step (st : list json * option pystr) (m : message)
  : list json * option pystr :=
  let '(bedrock_messages, system_message) := st in
  let role := dict_get m (py "role") (py "") in
  let content := dict_get m (py "content") (py "") in
  if decide (role = py "system") then (bedrock_messages, Some content)
  else if decide (role = py "user") then
    (bedrock_messages ++ [text_message (py "user") content], system_message)
  else if decide (role = py "assistant") then
    (bedrock_messages ++ [text_message (py "assistant") content], system_message)
  else (bedrock_messages, system_message).

Definition _convert_to_bedrock_messages (messages : list message) : converted :=
  let '(bedrock_messages, system_message) :=
    fold_left convert_step messages ([], None) in
  {| cr_messages := bedrock_messages; cr_system := system_message |}.

(** The dictionary serialised at lines 48-54. *)
Definition base_body (bedrock_messages : converted) : list (pystr * json) :=
  [(py "messages", JList (cr_messages bedrock_messages));
   (py "max_tokens", JInt 4000);
   (py "temperature", JFloat 0.7);
   (py "top_p", JFloat 0.9);
   (py "anthropic_version", JStr (py "bedrock-2023-05-31"))].

(** Lines 48-60. [json.dumps] and [json.loads] are inverse to each other
    on these dictionaries, so the serialised body is represented by the
    document it denotes. *)
Definition request_body (bedrock_messages : converted) : json :=
  if truthy_str (cr_system bedrock_messages) then
    JDict (members_set (py "system")
             (JStr (default [] (cr_system bedrock_messages)))
             (base_body bedrock_messages))
  else JDict (base_body bedrock_messages).

(** [model or self.default_model] *)
Definition resolve_model (self : BedrockClient) (model : model_arg) : pystr :=
  match model with
  | ModelStr s => if model_truthy model then s else default_model self
  | _ => default_model self
  end.

(** The arguments of the call at lines 62-67. *)
Definition build_request (self : BedrockClient) (messages : list message)
    (model : model_arg) : invoke_request :=
  {| body := request_body (_convert_to_bedrock_messages messages);
     modelId := resolve_model self model;
     accept := py "application/json";
     contentType := py "application/json" |}.

Definition MSG_BAD_FORMAT : pystr := py "AI服务返回格式异常，请稍后重试".
Definition MSG_AUTH_FAILED : pystr := py "Bedrock API认证失败，请检查AWS凭证是否正确".
Definition MSG_BAD_PARAMS : pystr := py "Bedrock API请求参数错误，请检查模型ID是否正确".
Definition MSG_CALL_FAILED : pystr := py "调用Bedrock API时出错: ".

(** Lines 69-75: the reading of the parsed response body. *)
Definition read_response (response_body : json) : exec pystr :=
  has_content ← lift (contains (py "content") response_body);
  content_ok ← (if has_content : bool then
                  c ← lift (getitem_str response_body (py "content"));
                  ret (truthy c)
                else ret false);
  if content_ok : bool then
    c ← lift (getitem_str response_body (py "content"));
    first ← lift (getitem_0 c);
    text ← lift (getitem_str first (py "text"));
    lift (call_strip text)
  else
    emit (LogError (py "Unexpected response format from Bedrock API")) ;;
    ret MSG_BAD_FORMAT.

(** Lines 42-75: the body of the [try]. *)
Definition completions_try (self : BedrockClient) (messages : list message)
    (model : model_arg) : exec pystr :=
  emit (LogDebug (resolve_model self model) messages) ;;
  let request := build_request self messages model in
  emit (InvokeModel request) ;;
  response_body ← lift (client self request);
  read_response response_body.

(** Lines 77-88: the two handlers. What line 79 raises is raised inside
    the handler, where no [except] clause catches it. *)
Definition completions_except (e : exception) : exec pystr :=
  emit (LogError (py "Bedrock API error: " ++ str_exception e)) ;;
  match e with
  | ClientError response _ =>
      error ← lift (getitem_str response (py "Error"));
      error_code ← lift (getitem_str error (py "Code"));
      if eq_str error_code (py "UnauthorizedOperation") then ret MSG_AUTH_FAILED
      else if eq_str error_code (py "ValidationException") then ret MSG_BAD_PARAMS
      else ret (MSG_CALL_FAILED ++ str_exception e)
  | _ => ret (MSG_CALL_FAILED ++ str_exception e)
  end.

Definition completions (self : BedrockClient) (messages : list message)
    (model : model_arg) : exec pystr :=
  try_except (completions_try self messages model) completions_except.

Definition DEFAULT_MODEL : pystr := py "anthropic.claude-3-sonnet-20240229-v1:0".
Definition MSG_NO_CREDENTIALS : pystr :=
  py "AWS credentials are required. Please set AWS_ACCESS_KEY_ID and AWS_SECRET_ACCESS_KEY environment variables or configure IAM role.".

(** A call of [boto3.client]. *)
Definition call_boto3 (boto3_client : client_kwargs -> result bedrock_runtime)
    (kwargs : client_kwargs) : exec bedrock_runtime :=
  emit (CreateClient kwargs) ;; lift (boto3_client kwargs).

(** Lines 22-35: the handler of [NoCredentialsError]. *)
Definition init_fallback (environ : gmap pystr pystr)
    (boto3_client : client_kwargs -> result bedrock_runtime) : exec bedrock_runtime :=
  let aws_access_key := environ !! py "AWS_ACCESS_KEY_ID" in
  let aws_secret_key := environ !! py "AWS_SECRET_ACCESS_KEY" in
  let aws_region := dict_get environ (py "AWS_DEFAULT_REGION") (py "us-east-1") in
  if negb (truthy_str aws_access_key) || negb (truthy_str aws_secret_key) then
    raise (ValueError MSG_NO_CREDENTIALS)
  else
    call_boto3 boto3_client
      {| service_name := py "bedrock-runtime";
         aws_access_key_id := aws_access_key;
         aws_secret_access_key := aws_secret_key;
         region_name := Some aws_region |}.

(** The constructor, given the process environment ([os.getenv]) and the
    behaviour of [boto3.client]. *)
Definition __init__ (environ : gmap pystr pystr)
    (boto3_client : client_kwargs -> result bedrock_runtime) : exec BedrockClient :=
  let default_model := dict_get environ (py "BEDROCK_API_MODEL") DEFAULT_MODEL in
  c ← try_except
         (call_boto3 boto3_client
            {| service_name := py "bedrock-runtime";
               aws_access_key_id := None;
               aws_secret_access_key := None;
               region_name := None |})
         (fun e => match e with
                   | NoCredentialsError _ => init_fallback environ boto3_client
                   | _ => raise e
                   end);
  ret {| default_model := default_model; client := c |}.

(** ** Vocabulary of the properties *)

(** [message.get("role", "")] and [message.get("content", "")] *)
Definition role_of (m : message) : pystr := dict_get m (py "role") (py "").
Definition content_of (m : message) : pystr := dict_get m (py "content") (py "").

Definition is_system (m : message) : Prop := role_of m = py "system".
Definition is_chat (m : message) : Prop :=
  role_of m = py "user" \/ role_of m = py "assistant".
Definition known_role (m : message) : Prop := is_system m \/ is_chat m.

#[global] Instance is_system_dec m : Decision (is_system m).
Proof. unfold is_system. apply _. Defined.
#[global] Instance is_chat_dec m : Decision (is_chat m).
Proof. unfold is_chat. apply _. Defined.
#[global] Instance known_role_dec m : Decision (known_role m).
Proof. unfold known_role. apply _. Defined.

(** A message with its role kept and its content wrapped in one text
    block. *)
Definition rewrap (m : message) : json :=
  JDict [(py "role", JStr (role_of m));
         (py "content", JList [JDict [(py "type", JStr (py "text"));
                                      (py "text", JStr (content_of m))]])].

(** The requests sent to the remote model during a run. *)
Definition invocations (t : list event) : list invoke_request :=
  omap (fun ev => match ev with InvokeModel r => Some r | _ => None end) t.

(** The clients built during a run. *)
Definition clients_created (t : list event) : list client_kwargs :=
  omap (fun ev => match ev with CreateClient k => Some k | _ => None end) t.

(** The two events that precede the answer of the remote model. *)
Definition prologue (self : BedrockClient) (messages : list message)
    (model : model_arg) : list event :=
  [LogDebug (resolve_model self model) messages;
   InvokeModel (build_request self messages model)].

(** The member [k] of a JSON document, when it is an object that has
    one. *)
Definition json_member (k : pystr) (j : json) : option json :=
  match j with
  | JDict members => members_get k members
  | _ => None
  end.

(** The responses for which the returned string is fixed by the shape of
    the body: an object whose [content] is a list that starts with an object
    holding a string [text]; an object without [content]; an object whose
    [content] is empty (false as a truth value). *)
Inductive expected_reply : json -> pystr -> Prop :=
| reply_text members fields rest t :
    members_get (py "content") members = Some (JList (JDict fields :: rest)) ->
    members_get (py "text") fields = Some (JStr t) ->
    expected_reply (JDict members) (strip t)
| reply_missing members :
    members_get (py "content") members = None ->
    expected_reply (JDict members) MSG_BAD_FORMAT
| reply_empty members v :
    members_get (py "content") members = Some v ->
    truthy v = false ->
    expected_reply (JDict members) MSG_BAD_FORMAT.

(** The texts logged at error level during a run. *)
Definition errors_logged (t : list event) : list pystr :=
  omap (fun ev => match ev with LogError text => Some text | _ => None end) t.

(** The keyword arguments of the first call of [boto3.client] (line 20)
    and of the second one (lines 30-35). *)
Definition ambient_kwargs : client_kwargs :=
  {| service_name := py "bedrock-runtime";
     aws_access_key_id := None;
     aws_secret_access_key := None;
     region_name := None |}.

Definition explicit_kwargs (access_key secret_key region : pystr) : client_kwargs :=
  {| service_name := py "bedrock-runtime";
     aws_access_key_id := Some access_key;
     aws_secret_access_key := Some secret_key;
     region_name := Some region |}.

(** ** Sample inputs *)

(** The message [{"role": role, "content": content}]. *)
Definition sample_message (role content : string) : message :=
  <[py "role" := py role]> (<[py "content" := py content]> ∅).

(** An adapter whose remote call always ends with [outcome]. *)
Definition sample_adapter (outcome : result json) : BedrockClient :=
  {| default_model := py "anthropic.claude-3-sonnet-20240229-v1:0";
     client := fun _ => outcome |}.

(** [ClientError({'Error': {'Code': code, 'Message': message}},
    'InvokeModel')], with the text botocore formats for it. *)
Definition sample_client_error (code message : string) : exception :=
  ClientError
    (JDict [(py "Error", JDict [(py "Code", JStr (py code));
                                (py "Message", JStr (py message))])])
    (py "An error occurred (" ++ py code
     ++ py ") when calling the InvokeModel operation: " ++ py message).

(** [ClientError({}, 'InvokeModel')], with the text botocore formats for
    it. *)
Definition codeless_client_error : exception :=
  ClientError (JDict [])
    (py "An error occurred (Unknown) when calling the InvokeModel operation: Unknown").

(** A [boto3.client] that has no ambient credentials and accepts explicit
    keys, handing out a runtime whose calls end with [outcome]. *)
Definition sample_boto3 (outcome : result json) (kwargs : client_kwargs)
  : result bedrock_runtime :=
  match aws_access_key_id kwargs with
  | None => Raise (NoCredentialsError (py "Unable to locate credentials"))
  | Some _ => Return (fun _ => outcome)
  end.

(** An environment with both access keys and a model of its own, and no
    region. *)
Definition sample_environ : gmap pystr pystr :=
  <[py "AWS_ACCESS_KEY_ID" := py "AKIAEXAMPLE"]>
    (<[py "AWS_SECRET_ACCESS_KEY" := py "wJalrEXAMPLEKEY"]>
       (<[py "BEDROCK_API_MODEL" := py "anthropic.claude-3-haiku-20240307-v1:0"]> ∅)).

(** The body [{"content": [{"type": "text", "text": text}]}]. *)
Definition sample_reply (text : string) : json :=
  JDict [(py "content",
          JList [JDict [(py "type", JStr (py "text")); (py "text", JStr (py text))]])].

(** * Properties *)

(** ** Strings *)

Lemma lstrip_suffix s : exists l, s = l ++ lstrip s /\ forallb isspace l = true.
Proof.
  induction s as [|c s [l [Hl Hs]]]; simpl.
  - exists []. done.
  - destruct (isspace c) eqn:Hc.
    + exists (c :: l). simpl. rewrite Hc, Hs. split; [by f_equal|done].
    + exists []. done.
Qed.

Lemma lstrip_head c s' s : lstrip s = c :: s' -> isspace c = false.
Proof.
  induction s as [|d s IH]; simpl; [done|].
  destruct (isspace d) eqn:Hd; [done|]. intros [= -> _]. done.
Qed.

(** [strip] removes white space only, and all of it at both ends. *)
Lemma strip_spec s :
  exists l r, s = l ++ strip s ++ r
    /\ forallb isspace l = true /\ forallb isspace r = true
    /\ (forall c t, strip s = c :: t -> isspace c = false)
    /\ (forall c t, strip s = t ++ [c] -> isspace c = false).
Proof.
  unfold strip, rstrip.
  destruct (lstrip_suffix s) as [l [Hl Hsl]].
  destruct (lstrip_suffix (reverse (lstrip s))) as [r [Hr Hsr]].
  set (u := lstrip (reverse (lstrip s))) in *.
  assert (Hmid : lstrip s = reverse u ++ reverse r).
  { rewrite <- reverse_app, <- Hr, reverse_involutive. done. }
  exists l, (reverse r). repeat split.
  - rewrite <- Hmid. done.
  - done.
  - rewrite forallb_forall in *. intros x Hx. apply Hsr.
    apply list_elem_of_In. apply list_elem_of_In in Hx.
    rewrite elem_of_reverse in Hx. exact Hx.
  - intros c t Hu.
    destruct u as [|d u'] eqn:Eu.
    { by destruct t. }
    assert (Hd : isspace d = false) by (eapply lstrip_head; exact Eu).
    destruct (lstrip s) as [|e s'] eqn:Es.
    { apply (f_equal length) in Hmid. rewrite length_app, !length_reverse in Hmid.
      simpl in Hmid. lia. }
    rewrite Hu in Hmid. simpl in Hmid. injection Hmid as -> _.
    eapply lstrip_head. exact Es.
  - intros c t Hu.
    apply (f_equal reverse) in Hu. rewrite reverse_involutive, reverse_snoc in Hu.
    eapply lstrip_head. exact Hu.
Qed.

(** ** Message conversion *)

Lemma roles_distinct :
  py "system" <> py "user" /\ py "system" <> py "assistant"
  /\ py "user" <> py "assistant".
Proof. repeat split; vm_compute; discriminate. Qed.

(** The loop, one message further. *)
Lemma convert_step_cases bm sm m :
  convert_step (bm, sm) m =
    if decide (is_system m) then (bm, Some (content_of m))
    else if decide (is_chat m) then (bm ++ [rewrap m], sm)
    else (bm, sm).
Proof.
  destruct roles_distinct as (Hsu & Hsa & Hua).
  unfold convert_step, is_system, is_chat, rewrap, text_message.
  fold (role_of m). fold (content_of m).
  destruct (decide (role_of m = py "system")) as [Hs|Hs]; [done|].
  destruct (decide (role_of m = py "user")) as [Hu|Hu].
  - rewrite decide_True by (by left). by rewrite Hu.
  - destruct (decide (role_of m = py "assistant")) as [Ha|Ha].
    + rewrite decide_True by (by right). by rewrite Ha.
    + rewrite decide_False by (intros [?|?]; done). done.
Qed.

(** What the loop has computed when it ends: the chat messages, rewrapped
    and in their order, and the content of the last system message. *)
Lemma convert_loop (msgs : list message) :
  fold_left convert_step msgs ([], None) =
    (rewrap <$> filter is_chat msgs, last (content_of <$> filter is_system msgs)).
Proof.
  induction msgs as [|m msgs IH] using rev_ind; [done|].
  rewrite fold_left_app, IH. cbn [fold_left].
  rewrite convert_step_cases, !filter_app.
  destruct roles_distinct as (Hsu & Hsa & Hua).
  destruct (decide (is_system m)) as [Hs|Hs].
  - assert (Hc : ~ is_chat m).
    { unfold is_system, is_chat in *. rewrite Hs. intros [?|?]; done. }
    rewrite (filter_cons_True is_system) by done.
    rewrite (filter_cons_False is_chat) by done.
    rewrite !filter_nil, app_nil_r, fmap_snoc, last_snoc. done.
  - rewrite (filter_cons_False is_system) by done.
    rewrite filter_nil, app_nil_r.
    destruct (decide (is_chat m)) as [Hc|Hc].
    + rewrite (filter_cons_True is_chat) by done.
      rewrite filter_nil, fmap_snoc. done.
    + rewrite (filter_cons_False is_chat) by done.
      rewrite filter_nil, app_nil_r. done.
Qed.

Lemma convert_eq (msgs : list message) :
  _convert_to_bedrock_messages msgs =
    {| cr_messages := rewrap <$> filter is_chat msgs;
       cr_system := last (content_of <$> filter is_system msgs) |}.
Proof. unfold _convert_to_bedrock_messages. by rewrite convert_loop. Qed.

Lemma filter_all {A} (P : A -> Prop) `{!forall x, Decision (P x)} (l : list A) :
  Forall P l -> filter P l = l.
Proof.
  induction 1 as [|x l Hx _ IH]; [done|].
  by rewrite filter_cons_True, IH.
Qed.

Lemma filter_none {A} (P Q : A -> Prop) `{!forall x, Decision (P x)} (l : list A) :
  (forall x, Q x -> ~ P x) -> Forall Q l -> filter P l = [].
Proof.
  intros HQ. induction 1 as [|x l Hx _ IH]; [done|].
  rewrite filter_cons_False; [done|]. by apply HQ.
Qed.

Lemma chat_not_system m : is_chat m -> ~ is_system m.
Proof.
  destruct roles_distinct as (Hsu & Hsa & Hua).
  unfold is_chat, is_system. intros [H|H] Hs; rewrite Hs in H; done.
Qed.

(** C4: a sequence with exactly one system message [s], all the others
    being user or assistant messages, converts to the content of [s] as
    [system] and to the other messages in their order, each with its role
    kept and its content wrapped in a one-element list
    [{type: "text", text: content}]. *)
Theorem convert_one_system (pre post : list message) (s : message) :
  Forall is_chat pre -> is_system s -> Forall is_chat post ->
  _convert_to_bedrock_messages (pre ++ s :: post) =
    {| cr_messages := rewrap <$> (pre ++ post);
       cr_system := Some (content_of s) |}.
Proof.
  intros Hpre Hs Hpost. rewrite convert_eq, !filter_app.
  rewrite (filter_cons_False is_chat) by (intros Hc; by apply chat_not_system in Hc).
  rewrite (filter_cons_True is_system) by done.
  rewrite !(filter_all is_chat) by done.
  rewrite !(filter_none is_system is_chat) by (done || apply chat_not_system).
  done.
Qed.

Lemma convert_system_eq (msgs : list message) :
  cr_system (_convert_to_bedrock_messages msgs) =
    last (content_of <$> filter is_system msgs).
Proof. by rewrite convert_eq. Qed.

(** C5: the [system] component is the content of the last system message
    of the sequence, and [None] when the sequence has none. *)
Theorem convert_system_last (msgs : list message) :
  cr_system (_convert_to_bedrock_messages msgs) =
    last (content_of <$> filter is_system msgs).
Proof. apply convert_system_eq. Qed.

(** C6: messages whose role is none of system, user and assistant have
    no effect on the result, which is the one obtained without them, and
    every message of the output is a rewrapped user or assistant message of
    the input. *)
Theorem convert_unknown_roles_dropped (msgs : list message) :
  _convert_to_bedrock_messages msgs =
    _convert_to_bedrock_messages (filter known_role msgs)
  /\ Forall (fun j => exists m, m ∈ msgs /\ is_chat m /\ j = rewrap m)
       (cr_messages (_convert_to_bedrock_messages msgs)).
Proof.
  split.
  - rewrite !convert_eq.
    rewrite (list_filter_filter_l is_chat known_role) by (intros; by right).
    rewrite (list_filter_filter_l is_system known_role) by (intros; by left).
    done.
  - rewrite convert_eq. cbn [cr_messages]. apply Forall_fmap, Forall_forall.
    intros m Hm. apply list_elem_of_filter in Hm as [Hc Hin]. by exists m.
Qed.

(** ** Completion invocation *)

Lemma completions_try_eq (self : BedrockClient) (msgs : list message) (model : model_arg) :
  completions_try self msgs model =
    match client self (build_request self msgs model) with
    | Return response_body =>
        (prologue self msgs model ++ (read_response response_body).1,
         (read_response response_body).2)
    | Raise e => (prologue self msgs model, Raise e)
    end.
Proof.
  unfold completions_try, prologue, mbind, exec_bind, bind, emit, lift.
  destruct (client self (build_request self msgs model)) as [b|e]; [|done].
  destruct (read_response b) as [t r]. done.
Qed.

Lemma completions_eq (self : BedrockClient) (msgs : list message) (model : model_arg) :
  completions self msgs model =
    match client self (build_request self msgs model) with
    | Return response_body =>
        match (read_response response_body).2 with
        | Return s =>
            (prologue self msgs model ++ (read_response response_body).1, Return s)
        | Raise e =>
            ((prologue self msgs model ++ (read_response response_body).1)
               ++ (completions_except e).1,
             (completions_except e).2)
        end
    | Raise e =>
        (prologue self msgs model ++ (completions_except e).1,
         (completions_except e).2)
    end.
Proof.
  unfold completions, try_except. rewrite completions_try_eq.
  destruct (client self (build_request self msgs model)) as [b|e].
  - destruct (read_response b) as [t [s|e]]; [done|].
    cbn [fst snd]. by destruct (completions_except e).
  - by destruct (completions_except e).
Qed.

(** The handlers log one error; they return a string unless reading the
    code of a [ClientError] raises. *)
Lemma completions_except_eq e :
  completions_except e =
    ([LogError (py "Bedrock API error: " ++ str_exception e)],
     match e with
     | ClientError response _ =>
         match getitem_str response (py "Error") with
         | Return error =>
             match getitem_str error (py "Code") with
             | Return error_code =>
                 Return (if eq_str error_code (py "UnauthorizedOperation")
                         then MSG_AUTH_FAILED
                         else if eq_str error_code (py "ValidationException")
                         then MSG_BAD_PARAMS
                         else MSG_CALL_FAILED ++ str_exception e)
             | Raise e' => Raise e'
             end
         | Raise e' => Raise e'
         end
     | _ => Return (MSG_CALL_FAILED ++ str_exception e)
     end).
Proof.
  unfold completions_except, mbind, exec_bind, bind, emit, lift, ret.
  destruct e; try reflexivity.
  destruct (getitem_str response (py "Error")) as [error|e']; [|reflexivity].
  destruct (getitem_str error (py "Code")) as [error_code|e']; [|reflexivity].
  destruct (eq_str error_code (py "UnauthorizedOperation")); [reflexivity|].
  destruct (eq_str error_code (py "ValidationException")); reflexivity.
Qed.



(** Reading the response emits no request. *)
Lemma read_response_invocations response_body :
  invocations (read_response response_body).1 = [].
Proof.
  unfold read_response, mbind, exec_bind, bind, emit, lift, ret, mret, exec_ret.
  repeat (case_match; simplify_eq/=; try done).
Qed.

Lemma completions_invocations (self : BedrockClient) (msgs : list message) (model : model_arg) :
  invocations (completions self msgs model).1 = [build_request self msgs model].
Proof.
  rewrite completions_eq.
  destruct (client self (build_request self msgs model)) as [b|e].
  - destruct (read_response b).2 as [s|e] eqn:Hr; cbn [fst].
    + unfold invocations. rewrite omap_app. fold invocations.
      by rewrite read_response_invocations.
    + unfold invocations. rewrite !omap_app. fold invocations.
      rewrite read_response_invocations, completions_except_eq. done.
  - cbn [fst]. rewrite completions_except_eq. done.
Qed.

Lemma read_response_expected response_body s :
  expected_reply response_body s -> (read_response response_body).2 = Return s.
Proof.
  unfold read_response, mbind, exec_bind, bind, emit, lift, ret, mret, exec_ret.
  destruct 1 as [members fields rest t Hc Ht|members Hc|members v Hc Hv];
    cbn [contains getitem_str]; rewrite Hc.
  - rewrite bool_decide_true by eauto.
    cbn [getitem_0 getitem_str truthy length].
    rewrite bool_decide_false by done. rewrite Ht. done.
  - rewrite bool_decide_false by (by intros [? ?]). done.
  - rewrite bool_decide_true by eauto. rewrite Hv. done.
Qed.

(** C1, amended: when the parsed body is an object whose [content] is a
    non-empty list whose first element is an object with a string [text],
    [completions] returns that text stripped of surrounding white space;
    when the parsed body is an object in which [content] is missing or
    empty, it returns the fixed abnormal-format message. *)
Theorem completions_reply (self : BedrockClient) (msgs : list message) (model : model_arg) response_body s :
  client self (build_request self msgs model) = Return response_body ->
  expected_reply response_body s ->
  (completions self msgs model).2 = Return s.
Proof.
  intros Hcl Hshape. rewrite completions_eq, Hcl.
  by rewrite (read_response_expected _ _ Hshape).
Qed.

(** C2: when the remote call raises a [ClientError] whose response holds
    the code [error_code] at [['Error']['Code']], the returned string
    is the authentication message for code [UnauthorizedOperation], the
    parameter message for code [ValidationException], and otherwise the
    call-failed template followed by the text of the error. *)
Theorem completions_client_error (self : BedrockClient) (msgs : list message) (model : model_arg) response error error_code text :
  client self (build_request self msgs model) = Raise (ClientError response text) ->
  getitem_str response (py "Error") = Return error ->
  getitem_str error (py "Code") = Return (JStr error_code) ->
  (completions self msgs model).2 =
    Return (if decide (error_code = py "UnauthorizedOperation") then
              py "Bedrock API认证失败，请检查AWS凭证是否正确"
            else if decide (error_code = py "ValidationException") then
              py "Bedrock API请求参数错误，请检查模型ID是否正确"
            else py "调用Bedrock API时出错: " ++ text).
Proof.
  intros Hcl Herror Hcode.
  rewrite completions_eq, Hcl, completions_except_eq, Herror, Hcode.
  cbn [snd eq_str].
  destruct (decide (error_code = py "UnauthorizedOperation")) as [->|Hne1].
  - rewrite bool_decide_true by reflexivity. reflexivity.
  - rewrite bool_decide_false by exact Hne1.
    destruct (decide (error_code = py "ValidationException")) as [->|Hne2].
    + rewrite bool_decide_true by reflexivity. reflexivity.
    + rewrite bool_decide_false by exact Hne2. reflexivity.
Qed.


(** C3 fails on the code: the remote call raises a [ClientError] built
    from a response without an [Error] member, line 78 logs it, line 79
    raises [KeyError] inside the handler, and [completions] raises that
    [KeyError] to its caller instead of returning a string. *)
Theorem completions_raises_key_error :
  completions (sample_adapter (Raise codeless_client_error))
    [sample_message "user" "Hi"] NOT_GIVEN =
    (prologue (sample_adapter (Raise codeless_client_error))
       [sample_message "user" "Hi"] NOT_GIVEN
       ++ [LogError (py "Bedrock API error: An error occurred (Unknown) when calling the InvokeModel operation: Unknown")],
     Raise (KeyError (py "'Error'"))).
Proof.
  rewrite completions_eq. cbn [sample_adapter client].
  rewrite completions_except_eq. vm_compute. reflexivity.
Qed.


(** ** The request *)

Lemma request_body_eq (c : converted) :
  request_body c =
    JDict ([(py "messages", JList (cr_messages c));
            (py "max_tokens", JInt 4000);
            (py "temperature", JFloat 0.7);
            (py "top_p", JFloat 0.9);
            (py "anthropic_version", JStr (py "bedrock-2023-05-31"))]
           ++ match cr_system c with
              | Some (ch :: s) => [(py "system", JStr (ch :: s))]
              | _ => []
              end).
Proof.
  unfold request_body, base_body.
  destruct (cr_system c) as [[|ch s]|]; cbn [truthy_str default]; done.
Qed.

(** C7, amended: every call sends exactly one request; its markers
    [accept] and [contentType] are [application/json] and its body holds the
    converted messages, [max_tokens] 4000, [temperature] 0.7, [top_p] 0.9,
    [anthropic_version] "bedrock-2023-05-31", followed by a [system] member
    set to the extracted system text exactly when that text is not empty. *)
Theorem completions_request (self : BedrockClient) (msgs : list message) (model : model_arg) :
  exists request,
    invocations (completions self msgs model).1 = [request]
    /\ accept request = py "application/json"
    /\ contentType request = py "application/json"
    /\ body request =
         JDict ([(py "messages",
                  JList (cr_messages (_convert_to_bedrock_messages msgs)));
                 (py "max_tokens", JInt 4000);
                 (py "temperature", JFloat 0.7);
                 (py "top_p", JFloat 0.9);
                 (py "anthropic_version", JStr (py "bedrock-2023-05-31"))]
                ++ match cr_system (_convert_to_bedrock_messages msgs) with
                   | Some (ch :: s) => [(py "system", JStr (ch :: s))]
                   | _ => []
                   end).
Proof.
  exists (build_request self msgs model).
  rewrite completions_invocations. cbn [build_request accept contentType body].
  by rewrite request_body_eq.
Qed.

(** C9, amended: the model identifier of the request is the [model]
    argument when that is a non-empty string, and the configured default
    when it is omitted, [None] or the empty string. *)
Theorem completions_model (self : BedrockClient) (msgs : list message) (model : model_arg) :
  modelId <$> invocations (completions self msgs model).1 =
    [match model with
     | ModelStr (ch :: s) => ch :: s
     | _ => default_model self
     end].
Proof.
  rewrite completions_invocations. cbn [fmap list_fmap build_request modelId].
  by destruct model as [| |[|ch s]].
Qed.

(** C10: when the last system message has an empty content, or no
    [content] key at all, the body of the request has no [system] member. *)
Theorem completions_empty_system_omitted (self : BedrockClient) (msgs : list message) (model : model_arg) (s : message) :
  last (filter is_system msgs) = Some s ->
  s !! py "content" = None \/ s !! py "content" = Some (py "") ->
  exists request,
    invocations (completions self msgs model).1 = [request]
    /\ json_member (py "system") (body request) = None.
Proof.
  intros Hlast Hcontent.
  exists (build_request self msgs model).
  rewrite completions_invocations. split; [done|].
  cbn [build_request body]. rewrite request_body_eq.
  rewrite convert_system_eq, fmap_last, Hlast. cbn [fmap option_fmap option_map].
  assert (Hempty : content_of s = []).
  { unfold content_of, dict_get. by destruct Hcontent as [-> | ->]. }
  rewrite Hempty. cbn [app json_member members_get].
  repeat (rewrite decide_False by (vm_compute; discriminate)). done.
Qed.

(** ** Construction *)

(** C8: when the first [boto3.client] call raises [NoCredentialsError] and
    the access key or the secret key is absent from the environment,
    [__init__] raises the [ValueError] that asks for credentials, and the
    only client construction attempted is the first one, without keys. *)
Theorem init_missing_credentials
    (environ : gmap pystr pystr)
    (boto3_client : client_kwargs -> result bedrock_runtime) (text : pystr) :
  boto3_client {| service_name := py "bedrock-runtime";
                  aws_access_key_id := None;
                  aws_secret_access_key := None;
                  region_name := None |} = Raise (NoCredentialsError text) ->
  environ !! py "AWS_ACCESS_KEY_ID" = None
  \/ environ !! py "AWS_SECRET_ACCESS_KEY" = None ->
  (__init__ environ boto3_client).2 = Raise (ValueError MSG_NO_CREDENTIALS)
  /\ clients_created (__init__ environ boto3_client).1 =
       [{| service_name := py "bedrock-runtime";
           aws_access_key_id := None;
           aws_secret_access_key := None;
           region_name := None |}].
Proof.
  intros Hambient Hkeys.
  unfold __init__, init_fallback, call_boto3, try_except, mbind, exec_bind,
    bind, emit, lift, raise.
  rewrite Hambient.
  assert (Hfalsy : negb (truthy_str (environ !! py "AWS_ACCESS_KEY_ID"))
                   || negb (truthy_str (environ !! py "AWS_SECRET_ACCESS_KEY"))
                   = true).
  { destruct Hkeys as [-> | ->]; cbn [truthy_str negb orb]; [done|].
    apply orb_true_r. }
  rewrite Hfalsy. done.
Qed.

(** * Instances *)

Lemma convert_one_system_witness :
  _convert_to_bedrock_messages
    [sample_message "system" "You are terse."; sample_message "user" "Hi"] =
    {| cr_messages := [text_message (py "user") (py "Hi")];
       cr_system := Some (py "You are terse.") |}.
Proof.
  assert (H1 : is_system (sample_message "system" "You are terse."))
    by (vm_compute; reflexivity).
  assert (H2 : is_chat (sample_message "user" "Hi"))
    by (left; vm_compute; reflexivity).
  assert (H0 : Forall is_chat []) by constructor.
  assert (H3 : Forall is_chat [sample_message "user" "Hi"])
    by (constructor; [exact H2 | constructor]).
  generalize (convert_one_system [] [sample_message "user" "Hi"]
                (sample_message "system" "You are terse.") H0 H1 H3).
  vm_compute. intros H; exact H.
Defined.

Lemma completions_reply_witness :
  (completions
     (sample_adapter
        (Return (JDict [(py "content",
                         JList [JDict [(py "text", JStr (py " Hello there "))]])])))
     [sample_message "user" "Hi"] NOT_GIVEN).2 = Return (py "Hello there").
Proof.
  assert (H1 : expected_reply
                 (JDict [(py "content",
                          JList [JDict [(py "text", JStr (py " Hello there "))]])])
                 (strip (py " Hello there "))).
  { apply (reply_text _ [(py "text", JStr (py " Hello there "))] []);
      vm_compute; reflexivity. }
  generalize (completions_reply
                (sample_adapter
                   (Return (JDict [(py "content",
                                    JList [JDict [(py "text", JStr (py " Hello there "))]])])))
                [sample_message "user" "Hi"] NOT_GIVEN _ _ eq_refl H1).
  vm_compute. intros H; exact H.
Defined.

Lemma completions_client_error_witness :
  (completions
     (sample_adapter (Raise (sample_client_error "ValidationException" "bad model")))
     [sample_message "user" "Hi"] NOT_GIVEN).2 =
    Return (py "Bedrock API请求参数错误，请检查模型ID是否正确").
Proof.
  assert (H1 : getitem_str
                 (JDict [(py "Error",
                          JDict [(py "Code", JStr (py "ValidationException"));
                                 (py "Message", JStr (py "bad model"))])])
                 (py "Error")
               = Return (JDict [(py "Code", JStr (py "ValidationException"));
                                (py "Message", JStr (py "bad model"))]))
    by (vm_compute; reflexivity).
  assert (H2 : getitem_str
                 (JDict [(py "Code", JStr (py "ValidationException"));
                         (py "Message", JStr (py "bad model"))])
                 (py "Code")
               = Return (JStr (py "ValidationException")))
    by (vm_compute; reflexivity).
  generalize (completions_client_error
                (sample_adapter
                   (Raise (sample_client_error "ValidationException" "bad model")))
                [sample_message "user" "Hi"] NOT_GIVEN _ _ _ _ eq_refl H1 H2).
  vm_compute. intros H; exact H.
Defined.

Lemma completions_empty_system_omitted_witness :
  exists request,
    invocations
      (completions (sample_adapter (Return JNull))
         [sample_message "system" ""; sample_message "user" "Hi"] NOT_GIVEN).1
      = [request]
    /\ json_member (py "system") (body request) = None.
Proof.
  assert (H1 : last (filter is_system
                       [sample_message "system" ""; sample_message "user" "Hi"])
               = Some (sample_message "system" ""))
    by (vm_compute; reflexivity).
  assert (H2 : sample_message "system" "" !! py "content" = None
               \/ sample_message "system" "" !! py "content" = Some (py ""))
    by (right; vm_compute; reflexivity).
  exact (completions_empty_system_omitted (sample_adapter (Return JNull))
           [sample_message "system" ""; sample_message "user" "Hi"] NOT_GIVEN
           (sample_message "system" "") H1 H2).
Defined.

Lemma init_missing_credentials_witness :
  (__init__ ∅ (fun _ => Raise (NoCredentialsError (py "Unable to locate credentials")))).2
    = Raise (ValueError MSG_NO_CREDENTIALS)
  /\ clients_created
       (__init__ ∅ (fun _ => Raise (NoCredentialsError (py "Unable to locate credentials")))).1
     = [{| service_name := py "bedrock-runtime";
           aws_access_key_id := None;
           aws_secret_access_key := None;
           region_name := None |}].
Proof.
  assert (H2 : (∅ : gmap pystr pystr) !! py "AWS_ACCESS_KEY_ID" = None
               \/ (∅ : gmap pystr pystr) !! py "AWS_SECRET_ACCESS_KEY" = None)
    by (left; vm_compute; reflexivity).
  exact (init_missing_credentials ∅
           (fun _ => Raise (NoCredentialsError (py "Unable to locate credentials")))
           (py "Unable to locate credentials") eq_refl H2).
Defined.

(** * Where the specification departs from the code *)

(** C1 as stated fails: a body whose [content] is a non-empty list makes
    [completions] return the call-failed message when the first element has
    no [text], and a body that is not an object and has no [content] does
    not yield the abnormal-format message either. *)
Lemma completions_reply_counterexample :
  (json_member (py "content") (JDict [(py "content", JList [JDict []])])
     = Some (JList [JDict []])
   /\ json_member (py "text") (JDict []) = None
   /\ (completions
         (sample_adapter (Return (JDict [(py "content", JList [JDict []])])))
         [sample_message "user" "Hi"] NOT_GIVEN).2
      = Return (py "调用Bedrock API时出错: 'text'"))
  /\ (json_member (py "content") (JInt 7) = None
      /\ (completions (sample_adapter (Return (JInt 7)))
            [sample_message "user" "Hi"] NOT_GIVEN).2
         = Return (py "调用Bedrock API时出错: argument of type 'int' is not iterable")
      /\ (completions (sample_adapter (Return (JInt 7)))
            [sample_message "user" "Hi"] NOT_GIVEN).2
         <> Return MSG_BAD_FORMAT).
Proof.
  repeat split; try (vm_compute; reflexivity).
  vm_compute. discriminate.
Qed.

(** C7 as stated fails: with a system message of empty content a system
    text is extracted (the empty string), yet the body has no [system]
    member. *)
Lemma completions_request_counterexample :
  ~ (is_Some (cr_system (_convert_to_bedrock_messages
                           [sample_message "system" ""; sample_message "user" "Hi"]))
     <-> is_Some (json_member (py "system")
                    (body (build_request (sample_adapter (Return JNull))
                             [sample_message "system" ""; sample_message "user" "Hi"]
                             NOT_GIVEN)))).
Proof.
  intros [Hto _].
  assert (Hsys : cr_system (_convert_to_bedrock_messages
                              [sample_message "system" ""; sample_message "user" "Hi"])
                 = Some (py "")) by (vm_compute; reflexivity).
  assert (Hbody : json_member (py "system")
                    (body (build_request (sample_adapter (Return JNull))
                             [sample_message "system" ""; sample_message "user" "Hi"]
                             NOT_GIVEN)) = None) by (vm_compute; reflexivity).
  rewrite Hsys, Hbody in Hto. destruct Hto as [x Hx]; [by eexists|]. discriminate.
Qed.

(** C9 as stated fails: an explicit [model] that is the empty string is
    not the identifier sent; the configured default is. *)
Lemma completions_model_counterexample :
  modelId <$> invocations
                (completions (sample_adapter (Return JNull))
                   [sample_message "user" "Hi"] (ModelStr (py ""))).1
    = [py "anthropic.claude-3-sonnet-20240229-v1:0"]
  /\ modelId <$> invocations
                   (completions (sample_adapter (Return JNull))
                      [sample_message "user" "Hi"] (ModelStr (py ""))).1
     <> [py ""].
Proof.
  split; [vm_compute; reflexivity | vm_compute; discriminate].
Qed.

(** * Further properties *)

(** ** Reading the response *)

(** The three ways in which the reading of a response ends: the answer,
    without any event; the abnormal-format message, after one error line; an
    exception, without any event. *)
Lemma read_response_cases (response_body : json) :
  (exists members fields rest t,
      response_body = JDict members
      /\ members_get (py "content") members = Some (JList (JDict fields :: rest))
      /\ members_get (py "text") fields = Some (JStr t)
      /\ read_response response_body = ([], Return (strip t)))
  \/ read_response response_body =
       ([LogError (py "Unexpected response format from Bedrock API")],
        Return MSG_BAD_FORMAT)
  \/ exists e, read_response response_body = ([], Raise e).
Proof.
  unfold read_response, mbind, exec_bind, bind, emit, lift, ret, mret, exec_ret.
  destruct response_body as [| b | n | f | s | items | members];
    cbn [contains getitem_str];
    try (right; right; eexists; reflexivity).
  - destruct (str_contains (py "content") s);
      [right; right; eexists; reflexivity | right; left; reflexivity].
  - destruct (existsb _ items);
      [right; right; eexists; reflexivity | right; left; reflexivity].
  - destruct (members_get (py "content") members) as [v|] eqn:Hc.
    2:{ rewrite bool_decide_false by (by intros [? ?]). right; left; reflexivity. }
    rewrite bool_decide_true by eauto.
    destruct (truthy v) eqn:Hv; [|right; left; reflexivity].
    destruct v as [| b | n | f | s | [|first rest] | ms];
      try (right; right; eexists; reflexivity).
    + destruct s; right; right; eexists; reflexivity.
    + destruct first as [| b | n | f | s | items | fields];
        try (right; right; eexists; reflexivity).
      cbn [getitem_0 getitem_str].
      destruct (members_get (py "text") fields) as [x|] eqn:Ht;
        [|right; right; eexists; reflexivity].
      destruct x as [| b | n | f | t | items | ms];
        try (right; right; eexists; reflexivity).
      left. exists members, fields, rest, t. done.
Qed.

(** What the reading raises comes from the interpreter: it is never a
    [ClientError]. *)
Lemma contains_not_client_error k v e :
  contains k v = Raise e -> forall response text, e <> ClientError response text.
Proof. destruct v; cbn [contains]; intros [= <-] response text; discriminate. Qed.

Lemma getitem_str_not_client_error v k e :
  getitem_str v k = Raise e -> forall response text, e <> ClientError response text.
Proof.
  destruct v; cbn [getitem_str]; try (intros [= <-] response text; discriminate).
  destruct (members_get k members); intros [= <-] response text; discriminate.
Qed.

Lemma getitem_0_not_client_error v e :
  getitem_0 v = Raise e -> forall response text, e <> ClientError response text.
Proof.
  destruct v as [| | | |[|]|[|]|]; cbn [getitem_0];
    intros [= <-] response text; discriminate.
Qed.

Lemma call_strip_not_client_error v e :
  call_strip v = Raise e -> forall response text, e <> ClientError response text.
Proof. destruct v; cbn [call_strip]; intros [= <-] response text; discriminate. Qed.

Lemma read_response_not_client_error (response_body : json) (e : exception) :
  (read_response response_body).2 = Raise e ->
  forall response text, e <> ClientError response text.
Proof.
  unfold read_response, mbind, exec_bind, bind, emit, lift, ret, mret, exec_ret.
  destruct (contains (py "content") response_body) as [has_content|e0] eqn:H1;
    [|intros [= <-]; by eapply contains_not_client_error].
  destruct (getitem_str response_body (py "content")) as [c|e0] eqn:H2.
  - destruct has_content; cbn [ret]; [destruct (truthy c)|]; try discriminate.
    destruct (getitem_0 c) as [first|e0] eqn:H3;
      [|intros [= <-]; by eapply getitem_0_not_client_error].
    destruct (getitem_str first (py "text")) as [t|e0] eqn:H4;
      [|intros [= <-]; by eapply getitem_str_not_client_error].
    destruct (call_strip t) as [s|e0] eqn:H5; [discriminate|].
    intros [= <-]; by eapply call_strip_not_client_error.
  - destruct has_content; [|discriminate].
    intros [= <-]; by eapply getitem_str_not_client_error.
Qed.

Lemma read_response_answer members fields rest t :

  members_get (py "content") members = Some (JList (JDict fields :: rest)) ->
  members_get (py "text") fields = Some (JStr t) ->
  read_response (JDict members) = ([], Return (strip t)).
Proof.
  intros Hc Ht.
  unfold read_response, mbind, exec_bind, bind, emit, lift, ret, mret, exec_ret.
  cbn [contains getitem_str]. rewrite Hc.
  rewrite bool_decide_true by eauto.
  cbn [getitem_0 getitem_str truthy length].
  rewrite bool_decide_false by done. rewrite Ht. done.
Qed.

(** ** A call, from its first event to its result *)

Section Call.
Variables (self : BedrockClient) (msgs : list message) (model : model_arg).

(** The three ways in which a call ends: the answer and nothing
    logged at error level; the abnormal-format message after its error
    line; a handler's outcome (its message, or what line 79 raises) after
    the handler's error line. *)
Lemma completions_run :
  (exists members fields rest t,
      client self (build_request self msgs model) = Return (JDict members)
      /\ members_get (py "content") members = Some (JList (JDict fields :: rest))
      /\ members_get (py "text") fields = Some (JStr t)
      /\ completions self msgs model =
           (prologue self msgs model, Return (strip t)))
  \/ (exists response_body,
        client self (build_request self msgs model) = Return response_body
        /\ read_response response_body =
             ([LogError (py "Unexpected response format from Bedrock API")],
              Return MSG_BAD_FORMAT)
        /\ completions self msgs model =
             (prologue self msgs model
                ++ [LogError (py "Unexpected response format from Bedrock API")],
              Return MSG_BAD_FORMAT))
  \/ (exists e,
        (client self (build_request self msgs model) = Raise e
         \/ exists response_body,
             client self (build_request self msgs model) = Return response_body
             /\ read_response response_body = ([], Raise e))
        /\ completions self msgs model =
             (prologue self msgs model
                ++ [LogError (py "Bedrock API error: " ++ str_exception e)],
              (completions_except e).2)).
Proof.
  rewrite completions_eq.
  destruct (client self (build_request self msgs model)) as [b|e] eqn:Hcl.
  - destruct (read_response_cases b)
      as [(members & fields & rest & t & -> & Hc & Ht & Hr) | [Hr | [e Hr]]];
      rewrite Hr; cbn [fst snd].
    + left. exists members, fields, rest, t. by rewrite app_nil_r.
    + right; left. exists b. done.
    + right; right. exists e. split; [right; by exists b|].
      by rewrite app_nil_r, completions_except_eq.
  - right; right. exists e. split; [by left|].
    by rewrite completions_except_eq.
Qed.

(** X7: every call emits its debug line, then the one remote
    invocation, then at most one error line, and nothing else; a failed
    call is not tried again. *)
Theorem completions_trace_shape :
  (completions self msgs model).1 =
    prologue self msgs model
      ++ (LogError <$> errors_logged (completions self msgs model).1)
  /\ (length (errors_logged (completions self msgs model).1) <= 1)%nat.
Proof.
  destruct completions_run
    as [(members & fields & rest & t & _ & _ & _ & Hrun)
       | [(b & _ & _ & Hrun) | (e & _ & Hrun)]];
    rewrite Hrun; cbn [fst]; unfold errors_logged;
    rewrite ?omap_app; cbn; rewrite ?app_nil_r; split; (done || lia).
Qed.


(** X9: the answer taken from a well-formed response is logged without
    any error line and is the text of the first content element with
    white space removed at both ends, and only there. *)
Theorem completions_answer_trimmed members fields rest t :
  client self (build_request self msgs model) = Return (JDict members) ->
  members_get (py "content") members = Some (JList (JDict fields :: rest)) ->
  members_get (py "text") fields = Some (JStr t) ->
  errors_logged (completions self msgs model).1 = []
  /\ exists answer l r,
       (completions self msgs model).2 = Return answer
       /\ t = l ++ answer ++ r
       /\ forallb isspace l = true /\ forallb isspace r = true
       /\ (forall c, head answer = Some c -> isspace c = false)
       /\ (forall c, last answer = Some c -> isspace c = false).
Proof.
  intros Hcl Hc Ht.
  rewrite completions_eq, Hcl, (read_response_answer _ _ _ _ Hc Ht).
  cbn [fst snd]. rewrite app_nil_r. split; [done|].
  destruct (strip_spec t) as (l & r & Hsplit & Hl & Hr & Hhead & Hlast).
  exists (strip t), l, r. repeat split; try done.
  - intros c Hc1. destruct (strip t) as [|d tl] eqn:Es; [done|].
    cbn in Hc1. injection Hc1 as ->. by apply (Hhead c tl).
  - intros c Hc1. apply last_Some in Hc1 as [tl Htl]. by apply (Hlast c tl).
Qed.

(** X10: when the body is an object in which [content] is missing or
    false as a truth value, one error line
    "Unexpected response format from Bedrock API" follows the invocation
    and the abnormal-format message is returned. *)
Theorem completions_bad_format_logged members :
  client self (build_request self msgs model) = Return (JDict members) ->
  members_get (py "content") members = None
  \/ (exists v, members_get (py "content") members = Some v /\ truthy v = false) ->
  completions self msgs model =
    (prologue self msgs model
       ++ [LogError (py "Unexpected response format from Bedrock API")],
     Return (py "AI服务返回格式异常，请稍后重试")).
Proof.
  intros Hcl Hshape.
  assert (Hr : read_response (JDict members) =
               ([LogError (py "Unexpected response format from Bedrock API")],
                Return MSG_BAD_FORMAT)).
  { unfold read_response, mbind, exec_bind, bind, emit, lift, ret, mret, exec_ret.
    cbn [contains getitem_str].
    destruct Hshape as [Hc | (v & Hc & Hv)]; rewrite Hc.
    - rewrite bool_decide_false by (by intros [? ?]). reflexivity.
    - rewrite bool_decide_true by eauto. rewrite Hv. reflexivity. }
  rewrite completions_eq, Hcl, Hr. reflexivity.
Qed.

(** X11: an exception of the remote call that is not a [ClientError] is
    logged once and turned into the call-failed message followed by its
    text. *)
Theorem completions_other_exception e :
  client self (build_request self msgs model) = Raise e ->
  (forall response text, e <> ClientError response text) ->
  completions self msgs model =
    (prologue self msgs model
       ++ [LogError (py "Bedrock API error: " ++ str_exception e)],
     Return (py "调用Bedrock API时出错: " ++ str_exception e)).
Proof.
  intros Hcl Hother. rewrite completions_eq, Hcl, completions_except_eq.
  cbn [fst snd]. destruct e; try reflexivity.
  by destruct (Hother response text).
Qed.

(** X17: [completions] raises exactly when the remote call raised a
    [ClientError] and reading [e.response['Error']['Code']] raises; what
    leaves [completions] is then the exception of that subscript. In every
    other case a string is returned. *)
Theorem completions_raises_iff e :
  (completions self msgs model).2 = Raise e <->
  exists response text,
    client self (build_request self msgs model) = Raise (ClientError response text)
    /\ (getitem_str response (py "Error") = Raise e
        \/ exists error,
             getitem_str response (py "Error") = Return error
             /\ getitem_str error (py "Code") = Raise e).
Proof.
  rewrite completions_eq. split.
  - destruct (client self (build_request self msgs model)) as [b|e0] eqn:Hcl.
    + destruct (read_response b).2 as [s|e0] eqn:Hr; cbn [snd]; [discriminate|].
      rewrite completions_except_eq. cbn [snd].
      destruct e0; try discriminate.
      by destruct (read_response_not_client_error b _ Hr response text).
    + rewrite completions_except_eq. cbn [snd].
      destruct e0; try discriminate.
      intros Hraise. exists response, text. split; [reflexivity|].
      destruct (getitem_str response (py "Error")) as [error|e'].
      * right. exists error. split; [reflexivity|].
        destruct (getitem_str error (py "Code")); [discriminate|].
        by injection Hraise as ->.
      * left. by injection Hraise as ->.

  - intros (response & text & Hcl & Hcode). rewrite Hcl, completions_except_eq.
    cbn [snd]. destruct Hcode as [-> | (error & -> & ->)]; reflexivity.
Qed.
End Call.


(** ** Conversion and the request built from it *)

(** X12: converting a concatenation: the output messages are those of
    the two parts, in order, and the system text is the one of the second
    part when it has a system message, else the one of the first part. *)
Theorem convert_app (msgs1 msgs2 : list message) :
  cr_messages (_convert_to_bedrock_messages (msgs1 ++ msgs2)) =
    cr_messages (_convert_to_bedrock_messages msgs1)
      ++ cr_messages (_convert_to_bedrock_messages msgs2)
  /\ cr_system (_convert_to_bedrock_messages (msgs1 ++ msgs2)) =
       match cr_system (_convert_to_bedrock_messages msgs2) with
       | Some text => Some text
       | None => cr_system (_convert_to_bedrock_messages msgs1)
       end.
Proof.
  rewrite !convert_eq. cbn [cr_messages cr_system].
  rewrite !filter_app, !fmap_app. split; [reflexivity|].
  rewrite last_app. by destruct (last (content_of <$> filter is_system msgs2)).
Qed.

(** X13: only the [role] and the [content] of a message are read: two
    sequences that agree on them, message by message, convert alike,
    whatever other keys the messages carry. *)
Theorem convert_reads_role_and_content (msgs1 msgs2 : list message) :
  Forall2 (fun m1 m2 => role_of m1 = role_of m2 /\ content_of m1 = content_of m2)
    msgs1 msgs2 ->
  _convert_to_bedrock_messages msgs1 = _convert_to_bedrock_messages msgs2.
Proof.
  intros Hagree. rewrite !convert_eq.
  assert (Heq : rewrap <$> filter is_chat msgs1 = rewrap <$> filter is_chat msgs2
                /\ content_of <$> filter is_system msgs1
                   = content_of <$> filter is_system msgs2).
  { induction Hagree as [|m1 m2 l1 l2 [Hrole Hcontent] _ [IHc IHs]]; [done|].
    assert (Hchat : is_chat m1 <-> is_chat m2) by (unfold is_chat; by rewrite Hrole).
    assert (Hsys : is_system m1 <-> is_system m2)
      by (unfold is_system; by rewrite Hrole).
    split.
    - destruct (decide (is_chat m1)) as [H1|H1].
      + rewrite !(filter_cons_True is_chat) by tauto.
        rewrite !fmap_cons, IHc. unfold rewrap. by rewrite Hrole, Hcontent.
      + rewrite !(filter_cons_False is_chat) by tauto. exact IHc.
    - destruct (decide (is_system m1)) as [H1|H1].
      + rewrite !(filter_cons_True is_system) by tauto.
        by rewrite !fmap_cons, IHs, Hcontent.
      + rewrite !(filter_cons_False is_system) by tauto. exact IHs. }
  destruct Heq as [-> ->]. reflexivity.
Qed.

(** X14: a message without a [role] key is dropped, wherever it stands. *)
Theorem convert_missing_role_dropped (pre post : list message) (m : message) :
  m !! py "role" = None ->
  _convert_to_bedrock_messages (pre ++ m :: post) =
    _convert_to_bedrock_messages (pre ++ post).
Proof.
  intros Hrole.
  assert (Hempty : role_of m = []).
  { unfold role_of, dict_get. by rewrite Hrole. }
  rewrite !convert_eq, !filter_app.
  rewrite (filter_cons_False is_chat), (filter_cons_False is_system); [done| |].
  - unfold is_system. rewrite Hempty. vm_compute. discriminate.
  - unfold is_chat. rewrite Hempty. intros [H|H]; vm_compute in H; discriminate.
Qed.

(** X15: a user or assistant message without a [content] key is kept,
    with the empty string as the text of its block. *)
Theorem convert_missing_content (pre post : list message) (m : message) :
  is_chat m ->
  m !! py "content" = None ->
  cr_messages (_convert_to_bedrock_messages (pre ++ m :: post)) =
    cr_messages (_convert_to_bedrock_messages pre)
      ++ JDict [(py "role", JStr (role_of m));
                (py "content", JList [JDict [(py "type", JStr (py "text"));
                                             (py "text", JStr (py ""))]])]
         :: cr_messages (_convert_to_bedrock_messages post).
Proof.
  intros Hchat Hcontent.
  assert (Hempty : content_of m = py "").
  { unfold content_of, dict_get. by rewrite Hcontent. }
  rewrite !convert_eq. cbn [cr_messages].
  rewrite filter_app, (filter_cons_True is_chat) by done.
  rewrite fmap_app, fmap_cons. unfold rewrap at 2. by rewrite Hempty.
Qed.

(** X16: messages of unknown role change neither the request sent to the
    remote model nor the string returned. *)
Theorem completions_ignores_unknown_roles
    (self : BedrockClient) (msgs : list message) (model : model_arg) :
  invocations (completions self msgs model).1 =
    invocations (completions self (filter known_role msgs) model).1
  /\ (completions self msgs model).2 =
       (completions self (filter known_role msgs) model).2.
Proof.
  assert (Hreq : build_request self (filter known_role msgs) model
                 = build_request self msgs model).
  { unfold build_request. f_equal. f_equal. rewrite !convert_eq.
    rewrite (list_filter_filter_l is_chat known_role) by (intros; by right).
    rewrite (list_filter_filter_l is_system known_role) by (intros; by left).
    reflexivity. }
  split.
  - by rewrite !completions_invocations, Hreq.
  - rewrite !completions_eq, Hreq.
    destruct (client self (build_request self msgs model)) as [b|e];
      [destruct (read_response b).2|]; reflexivity.
Qed.

(** ** Construction, path by path *)

Section Construction.
Variable environ : gmap pystr pystr.
Variable boto3_client : client_kwargs -> result bedrock_runtime.

(** X1: when the first [boto3.client] call succeeds, the adapter holds
    the client it returned and the model named by [BEDROCK_API_MODEL], or
    the built-in one when the variable is unset; the access keys of the
    environment are not used and no second client is built. *)
Theorem init_ambient (c : bedrock_runtime) :
  boto3_client ambient_kwargs = Return c ->
  __init__ environ boto3_client =
    ([CreateClient ambient_kwargs],
     Return {| default_model :=
                 default (py "anthropic.claude-3-sonnet-20240229-v1:0")
                   (environ !! py "BEDROCK_API_MODEL");
               client := c |}).
Proof.
  intros Hambient.
  unfold __init__, call_boto3, try_except, mbind, exec_bind, bind, emit, lift,
    ret.
  fold ambient_kwargs. rewrite Hambient. reflexivity.
Qed.

(** X2: without ambient credentials and with both keys set and not
    empty, a second client is built from exactly those keys and from the
    region of [AWS_DEFAULT_REGION], or [us-east-1] when that is unset, and
    the adapter holds it. *)
Theorem init_explicit_keys (text access_key secret_key : pystr) (c : bedrock_runtime) :
  boto3_client ambient_kwargs = Raise (NoCredentialsError text) ->
  environ !! py "AWS_ACCESS_KEY_ID" = Some access_key -> access_key <> [] ->
  environ !! py "AWS_SECRET_ACCESS_KEY" = Some secret_key -> secret_key <> [] ->
  boto3_client
    (explicit_kwargs access_key secret_key
       (default (py "us-east-1") (environ !! py "AWS_DEFAULT_REGION"))) = Return c ->
  __init__ environ boto3_client =
    ([CreateClient ambient_kwargs;
      CreateClient
        (explicit_kwargs access_key secret_key
           (default (py "us-east-1") (environ !! py "AWS_DEFAULT_REGION")))],
     Return {| default_model :=
                 default (py "anthropic.claude-3-sonnet-20240229-v1:0")
                   (environ !! py "BEDROCK_API_MODEL");
               client := c |}).
Proof.
  intros Hambient Haccess Hne1 Hsecret Hne2 Hexplicit.
  unfold __init__, init_fallback, call_boto3, try_except, mbind, exec_bind,
    bind, emit, lift, ret, raise, dict_get.
  fold ambient_kwargs. rewrite Hambient, Haccess, Hsecret.
  destruct access_key as [|a ak]; [done|].
  destruct secret_key as [|s sk]; [done|].
  cbn [truthy_str negb orb].
  fold (explicit_kwargs (a :: ak) (s :: sk)
          (default (py "us-east-1") (environ !! py "AWS_DEFAULT_REGION"))).
  rewrite Hexplicit. reflexivity.
Qed.

(** X3: a key that is set to the empty string counts as missing:
    construction raises the [ValueError] and builds no second client. *)
Theorem init_empty_key (text : pystr) :
  boto3_client ambient_kwargs = Raise (NoCredentialsError text) ->
  environ !! py "AWS_ACCESS_KEY_ID" = Some (py "")
  \/ environ !! py "AWS_SECRET_ACCESS_KEY" = Some (py "") ->
  __init__ environ boto3_client =
    ([CreateClient ambient_kwargs],
     Raise (ValueError (py "AWS credentials are required. Please set AWS_ACCESS_KEY_ID and AWS_SECRET_ACCESS_KEY environment variables or configure IAM role."))).
Proof.
  intros Hambient Hkeys.
  unfold __init__, init_fallback, call_boto3, try_except, mbind, exec_bind,
    bind, emit, lift, raise.
  fold ambient_kwargs. rewrite Hambient.
  assert (Hfalsy : negb (truthy_str (environ !! py "AWS_ACCESS_KEY_ID"))
                   || negb (truthy_str (environ !! py "AWS_SECRET_ACCESS_KEY"))
                   = true).
  { destruct Hkeys as [-> | ->]; [reflexivity|]. apply orb_true_r. }
  rewrite Hfalsy. reflexivity.
Qed.

(** X4: an exception of the first [boto3.client] call other than
    [NoCredentialsError] leaves the constructor as it is; the keys of the
    environment are not tried. *)
Theorem init_other_error (e : exception) :
  boto3_client ambient_kwargs = Raise e ->
  (forall text, e <> NoCredentialsError text) ->
  __init__ environ boto3_client = ([CreateClient ambient_kwargs], Raise e).
Proof.
  intros Hambient Hother.
  unfold __init__, call_boto3, try_except, mbind, exec_bind, bind, emit, lift,
    raise.
  fold ambient_kwargs. rewrite Hambient.
  destruct e; try reflexivity. by destruct (Hother text).
Qed.

(** X5: an exception of the second [boto3.client] call, made with the
    keys of the environment, leaves the constructor as it is. *)
Theorem init_explicit_keys_error (text access_key secret_key : pystr) (e : exception) :
  boto3_client ambient_kwargs = Raise (NoCredentialsError text) ->
  environ !! py "AWS_ACCESS_KEY_ID" = Some access_key -> access_key <> [] ->
  environ !! py "AWS_SECRET_ACCESS_KEY" = Some secret_key -> secret_key <> [] ->
  boto3_client
    (explicit_kwargs access_key secret_key
       (default (py "us-east-1") (environ !! py "AWS_DEFAULT_REGION"))) = Raise e ->
  __init__ environ boto3_client =
    ([CreateClient ambient_kwargs;
      CreateClient
        (explicit_kwargs access_key secret_key
           (default (py "us-east-1") (environ !! py "AWS_DEFAULT_REGION")))],
     Raise e).
Proof.
  intros Hambient Haccess Hne1 Hsecret Hne2 Hexplicit.
  unfold __init__, init_fallback, call_boto3, try_except, mbind, exec_bind,
    bind, emit, lift, ret, raise, dict_get.
  fold ambient_kwargs. rewrite Hambient, Haccess, Hsecret.
  destruct access_key as [|a ak]; [done|].
  destruct secret_key as [|s sk]; [done|].
  cbn [truthy_str negb orb].
  fold (explicit_kwargs (a :: ak) (s :: sk)
          (default (py "us-east-1") (environ !! py "AWS_DEFAULT_REGION"))).
  rewrite Hexplicit. reflexivity.
Qed.

(** Whatever the path, a constructed adapter has the model of the
    environment. *)
Lemma init_default_model (self : BedrockClient) :
  (__init__ environ boto3_client).2 = Return self ->
  default_model self =
    default (py "anthropic.claude-3-sonnet-20240229-v1:0")
      (environ !! py "BEDROCK_API_MODEL").
Proof.
  unfold __init__, init_fallback, call_boto3, try_except, mbind, exec_bind,
    bind, emit, lift, ret, raise.
  destruct (boto3_client _) as [c|e].
  - cbn [snd]. by intros [= <-].
  - destruct e; try (cbn [snd]; discriminate).
    destruct (negb _ || negb _); [cbn [snd]; discriminate|].
    destruct (boto3_client _) as [c|e]; cbn [snd]; [by intros [= <-]|discriminate].
Qed.

(** X6: an adapter that was constructed and is called without a model
    (or with [None], or with the empty string) asks for the model named
    by [BEDROCK_API_MODEL], or for the built-in one when that variable is
    unset. *)
Theorem init_then_completions_model
    (self : BedrockClient) (msgs : list message) (model : model_arg) :
  (__init__ environ boto3_client).2 = Return self ->
  model_truthy model = false ->
  modelId <$> invocations (completions self msgs model).1 =
    [default (py "anthropic.claude-3-sonnet-20240229-v1:0")
       (environ !! py "BEDROCK_API_MODEL")].
Proof.
  intros Hinit Hmodel. rewrite completions_invocations.
  cbn [fmap list_fmap build_request modelId]. f_equal.
  rewrite <- (init_default_model self Hinit).
  unfold resolve_model. destruct model as [| |s]; try reflexivity.
  by rewrite Hmodel.
Qed.
End Construction.

(** ** Instances of the further properties *)

Lemma init_ambient_witness :
  __init__ sample_environ (fun _ => Return (fun _ => Return JNull)) =
    ([CreateClient ambient_kwargs],
     Return {| default_model :=
                 default (py "anthropic.claude-3-sonnet-20240229-v1:0")
                   (sample_environ !! py "BEDROCK_API_MODEL");
               client := fun _ => Return JNull |}).
Proof.
  exact (init_ambient sample_environ (fun _ => Return (fun _ => Return JNull))
           (fun _ => Return JNull) eq_refl).
Defined.

Lemma init_explicit_keys_witness :
  __init__ sample_environ (sample_boto3 (Return JNull)) =
    ([CreateClient ambient_kwargs;
      CreateClient
        (explicit_kwargs (py "AKIAEXAMPLE") (py "wJalrEXAMPLEKEY")
           (default (py "us-east-1") (sample_environ !! py "AWS_DEFAULT_REGION")))],
     Return {| default_model :=
                 default (py "anthropic.claude-3-sonnet-20240229-v1:0")
                   (sample_environ !! py "BEDROCK_API_MODEL");
               client := fun _ => Return JNull |}).
Proof.
  assert (H1 : sample_environ !! py "AWS_ACCESS_KEY_ID" = Some (py "AKIAEXAMPLE"))
    by (vm_compute; reflexivity).
  assert (H2 : py "AKIAEXAMPLE" <> []) by (vm_compute; discriminate).
  assert (H3 : sample_environ !! py "AWS_SECRET_ACCESS_KEY"
               = Some (py "wJalrEXAMPLEKEY")) by (vm_compute; reflexivity).
  assert (H4 : py "wJalrEXAMPLEKEY" <> []) by (vm_compute; discriminate).
  exact (init_explicit_keys sample_environ (sample_boto3 (Return JNull))
           (py "Unable to locate credentials") (py "AKIAEXAMPLE")
           (py "wJalrEXAMPLEKEY") (fun _ => Return JNull)
           eq_refl H1 H2 H3 H4 eq_refl).
Defined.

Lemma init_empty_key_witness :
  __init__ (<[py "AWS_ACCESS_KEY_ID" := py ""]> sample_environ)
    (sample_boto3 (Return JNull)) =
    ([CreateClient ambient_kwargs],
     Raise (ValueError (py "AWS credentials are required. Please set AWS_ACCESS_KEY_ID and AWS_SECRET_ACCESS_KEY environment variables or configure IAM role."))).
Proof.
  assert (H1 : <[py "AWS_ACCESS_KEY_ID" := py ""]> sample_environ
                 !! py "AWS_ACCESS_KEY_ID" = Some (py "")
               \/ <[py "AWS_ACCESS_KEY_ID" := py ""]> sample_environ
                    !! py "AWS_SECRET_ACCESS_KEY" = Some (py ""))
    by (left; vm_compute; reflexivity).
  exact (init_empty_key _ (sample_boto3 (Return JNull))
           (py "Unable to locate credentials") eq_refl H1).
Defined.

Lemma init_other_error_witness :
  __init__ sample_environ
    (fun _ => Raise (OtherError (py "You must specify a region."))) =
    ([CreateClient ambient_kwargs],
     Raise (OtherError (py "You must specify a region."))).
Proof.
  assert (H1 : forall text : pystr,
             OtherError (py "You must specify a region.") <> NoCredentialsError text)
    by (intros text; discriminate).
  exact (init_other_error sample_environ
           (fun _ => Raise (OtherError (py "You must specify a region.")))
           (OtherError (py "You must specify a region.")) eq_refl H1).
Defined.

Lemma init_explicit_keys_error_witness :
  __init__ sample_environ
    (fun kwargs => match aws_access_key_id kwargs with
                   | None => Raise (NoCredentialsError (py "Unable to locate credentials"))
                   | Some _ => Raise (OtherError (py "Unknown service"))
                   end) =
    ([CreateClient ambient_kwargs;
      CreateClient
        (explicit_kwargs (py "AKIAEXAMPLE") (py "wJalrEXAMPLEKEY")
           (default (py "us-east-1") (sample_environ !! py "AWS_DEFAULT_REGION")))],
     Raise (OtherError (py "Unknown service"))).
Proof.
  assert (H1 : sample_environ !! py "AWS_ACCESS_KEY_ID" = Some (py "AKIAEXAMPLE"))
    by (vm_compute; reflexivity).
  assert (H2 : py "AKIAEXAMPLE" <> []) by (vm_compute; discriminate).
  assert (H3 : sample_environ !! py "AWS_SECRET_ACCESS_KEY"
               = Some (py "wJalrEXAMPLEKEY")) by (vm_compute; reflexivity).
  assert (H4 : py "wJalrEXAMPLEKEY" <> []) by (vm_compute; discriminate).
  exact (init_explicit_keys_error sample_environ _
           (py "Unable to locate credentials") (py "AKIAEXAMPLE")
           (py "wJalrEXAMPLEKEY") (OtherError (py "Unknown service"))
           eq_refl H1 H2 H3 H4 eq_refl).
Defined.

Lemma init_then_completions_model_witness :
  modelId <$> invocations
                (completions
                   {| default_model := py "anthropic.claude-3-haiku-20240307-v1:0";
                      client := fun _ => Return JNull |}
                   [sample_message "user" "Hi"] NOT_GIVEN).1 =
    [default (py "anthropic.claude-3-sonnet-20240229-v1:0")
       (sample_environ !! py "BEDROCK_API_MODEL")].
Proof.
  assert (H1 : (__init__ sample_environ (fun _ => Return (fun _ => Return JNull))).2
               = Return {| default_model := py "anthropic.claude-3-haiku-20240307-v1:0";
                           client := fun _ => Return JNull |})
    by (vm_compute; reflexivity).
  exact (init_then_completions_model sample_environ
           (fun _ => Return (fun _ => Return JNull)) _
           [sample_message "user" "Hi"] NOT_GIVEN H1 eq_refl).
Defined.


Lemma completions_answer_trimmed_witness :
  errors_logged
    (completions (sample_adapter (Return (sample_reply " Hello there ")))
       [sample_message "user" "Hi"] NOT_GIVEN).1 = [].
Proof.
  assert (H1 : members_get (py "content")
                 [(py "content",
                   JList [JDict [(py "type", JStr (py "text"));
                                 (py "text", JStr (py " Hello there "))]])]
               = Some (JList [JDict [(py "type", JStr (py "text"));
                                     (py "text", JStr (py " Hello there "))]]))
    by (vm_compute; reflexivity).
  assert (H2 : members_get (py "text")
                 [(py "type", JStr (py "text"));
                  (py "text", JStr (py " Hello there "))]
               = Some (JStr (py " Hello there ")))
    by (vm_compute; reflexivity).
  exact (proj1 (completions_answer_trimmed
                  (sample_adapter (Return (sample_reply " Hello there ")))
                  [sample_message "user" "Hi"] NOT_GIVEN _ _ [] _ eq_refl H1 H2)).
Defined.

Lemma completions_bad_format_logged_witness :
  completions (sample_adapter (Return (JDict [(py "content", JList [])])))
    [sample_message "user" "Hi"] NOT_GIVEN =
    (prologue (sample_adapter (Return (JDict [(py "content", JList [])])))
       [sample_message "user" "Hi"] NOT_GIVEN
       ++ [LogError (py "Unexpected response format from Bedrock API")],
     Return (py "AI服务返回格式异常，请稍后重试")).
Proof.
  assert (H1 : members_get (py "content") [(py "content", JList [])] = None
               \/ exists v, members_get (py "content") [(py "content", JList [])]
                            = Some v /\ truthy v = false)
    by (right; exists (JList []); split; vm_compute; reflexivity).
  exact (completions_bad_format_logged
           (sample_adapter (Return (JDict [(py "content", JList [])])))
           [sample_message "user" "Hi"] NOT_GIVEN _ eq_refl H1).
Defined.

Lemma completions_other_exception_witness :
  completions (sample_adapter (Raise (OtherError (py "Read timed out"))))
    [sample_message "user" "Hi"] NOT_GIVEN =
    (prologue (sample_adapter (Raise (OtherError (py "Read timed out"))))
       [sample_message "user" "Hi"] NOT_GIVEN
       ++ [LogError (py "Bedrock API error: "
                     ++ str_exception (OtherError (py "Read timed out")))],
     Return (py "调用Bedrock API时出错: "
             ++ str_exception (OtherError (py "Read timed out")))).
Proof.
  assert (H1 : forall (response : json) (text : pystr),
             OtherError (py "Read timed out") <> ClientError response text)
    by (intros response text; discriminate).
  exact (completions_other_exception
           (sample_adapter (Raise (OtherError (py "Read timed out"))))
           [sample_message "user" "Hi"] NOT_GIVEN _ eq_refl H1).
Defined.

Lemma convert_reads_role_and_content_witness :
  _convert_to_bedrock_messages [sample_message "user" "Hi"] =
    _convert_to_bedrock_messages
      [<[py "name" := py "alice"]> (sample_message "user" "Hi")].
Proof.
  assert (H1 : Forall2
                 (fun m1 m2 : message =>
                    role_of m1 = role_of m2 /\ content_of m1 = content_of m2)
                 [sample_message "user" "Hi"]
                 [<[py "name" := py "alice"]> (sample_message "user" "Hi")])
    by (repeat constructor; vm_compute; reflexivity).
  exact (convert_reads_role_and_content _ _ H1).
Defined.

Lemma convert_missing_role_dropped_witness :
  _convert_to_bedrock_messages
    ([sample_message "user" "Hi"]
       ++ <[py "content" := py "orphan"]> ∅ :: [sample_message "assistant" "Hello"]) =
    _convert_to_bedrock_messages
      ([sample_message "user" "Hi"] ++ [sample_message "assistant" "Hello"]).
Proof.
  assert (H1 : (<[py "content" := py "orphan"]> ∅ : message) !! py "role" = None)
    by (vm_compute; reflexivity).
  exact (convert_missing_role_dropped [sample_message "user" "Hi"]
           [sample_message "assistant" "Hello"] _ H1).
Defined.

Lemma convert_missing_content_witness :
  cr_messages
    (_convert_to_bedrock_messages ([] ++ <[py "role" := py "user"]> ∅ :: [])) =
    cr_messages (_convert_to_bedrock_messages [])
      ++ JDict [(py "role", JStr (role_of (<[py "role" := py "user"]> ∅)));
                (py "content", JList [JDict [(py "type", JStr (py "text"));
                                             (py "text", JStr (py ""))]])]
         :: cr_messages (_convert_to_bedrock_messages []).
Proof.
  assert (H1 : is_chat (<[py "role" := py "user"]> ∅))
    by (left; vm_compute; reflexivity).
  assert (H2 : (<[py "role" := py "user"]> ∅ : message) !! py "content" = None)
    by (vm_compute; reflexivity).
  exact (convert_missing_content [] [] _ H1 H2).
Defined.
